(** * BiometricGaze: session lifecycle and stress classification (app.py)

    A shallow embedding of the stress-logging part of [app.py]: the three
    module-level globals [buffered_data], [is_logging], [current_id], the
    classifier wrapper [predict_stress_from_data] and the Flask handlers
    [start_logging_stress], [stop_logging_stress], [receive_data],
    [start_all_logging] and [stop_all_logging].

    Modelling decisions.
    - Sensor readings and model predictions are finite numbers, held as
      exact rationals [Q]: a reading that is not a number, or is [NaN], has
      no counterpart here, and the statements below that speak of buffers
      speak of buffers of finite numeric readings.
    - The aggregate of line 56 and the product of line 65 are computed in
      exact arithmetic; their binary64 rounding, and the order in which
      numpy adds the predictions, are not part of the model.  Statements
      that depend on the last digit of the percentage or on which side of
      a threshold a rounded aggregate falls are therefore not made.  The
      one non-finite value the aggregate can take, numpy's [nan] for
      [0 / 0], is kept ([npfloat]).
    - The handlers take the fields that lines 101, 207-208 and 248 read
      from a JSON object; [receive_data_request] adds, for [/data], the
      body that is not an object.
    - Python dicts whose keys are looked up at run time are association
      lists, and a failed subscript raises [KeyError].
    - A handler is a computation over the globals that either returns a
      response or raises; what was assigned before a [raise] stays assigned.
    - The collaborators of the module (the pickled classifier, the MongoDB
      collection, the gaze tracker) are not part of the repository's source;
      their outcome for one request is an input of the handler
      ([collaborators]). *)

From Stdlib Require Import List String Ascii ZArith NArith QArith Qabs Bool Lia Lqa.
From Stdlib Require Import DecimalString DecimalPos DecimalN.
Import ListNotations.

Local Open Scope string_scope.

(** ** Python values used by the module *)

(** Exceptions that can leave a handler.  Flask turns each of them into an
    HTTP 500 answer; none is caught inside [app.py]. *)
Inductive exn : Type :=
| KeyError (key : string)
| AttributeError (attr : string)   (* [x.attr] on a value without it *)
| ModelFault          (* load_model() or model.predict() raised *)
| PersistenceFault    (* collection.insert_one() raised *)
| GazeFault.          (* start_logging() or stop_logging() raised *)

Inductive result (A : Type) : Type :=
| Ok (a : A)
| Raise (e : exn).
Arguments Ok {A} a.
Arguments Raise {A} e.

(** A numpy float64 scalar: a finite value, or [nan]. *)
Inductive npfloat : Type :=
| Fin (q : Q)
| NaN.

(** JSON values as [jsonify] and MongoDB receive them. *)
#[warnings="-register-all"]
Inductive json : Type :=
| JNull
| JStr (s : string)
| JNum (q : Q)
| JObj (fields : list (string * json)).

Definition dict := list (string * json).

(** [d[key]]: the first binding of [key], [KeyError] when there is none. *)
Fixpoint getitem (d : dict) (key : string) : result json :=
  match d with
  | [] => Raise (KeyError key)
  | (k, v) :: d' => if String.eqb k key then Ok v else getitem d' key
  end.

(** One buffered sensor reading, the dict built by [receive_data]. *)
Record entry : Type := mkEntry
  { HR : Q;
    TEMP : Q;
    datetime : string }.

(** ** Numbers *)

Definition Qlt_bool (x y : Q) : bool := negb (Qle_bool y x).

(** [a < b] on float64 against a finite constant: every comparison with
    [nan] is [False]. *)
Definition np_lt (a : npfloat) (b : Q) : bool :=
  match a with
  | Fin q => Qlt_bool q b
  | NaN => false
  end.

Definition np_mul (a : npfloat) (b : Q) : npfloat :=
  match a with
  | Fin q => Fin (q * b)
  | NaN => NaN
  end.

(** [np.sum(P)] *)
Definition np_sum (P : list Q) : Q := fold_right Qplus 0 P.

(** [s / d] for a numpy scalar [s] and a Python int [d].  The only zero
    divisor in the module is [len(P) * 2] with [P] empty, where [s] is the
    empty sum: numpy answers [nan] (with a warning), it does not raise. *)
Definition np_true_divide (s : Q) (d : Z) : npfloat :=
  if (d =? 0)%Z then NaN else Fin (s / inject_Z d).

(** ** [f"{x:.2f}"] *)

(** Nearest integer, ties to even. *)
Definition round_half_even (q : Q) : Z :=
  let n := Qnum q in
  let d := Zpos (Qden q) in
  let k := (n / d)%Z in
  let r := (n mod d)%Z in
  match (2 * r ?= d)%Z with
  | Lt => k
  | Gt => (k + 1)%Z
  | Eq => if Z.even k then k else (k + 1)%Z
  end.

(** Decimal digits of a natural number, most significant first. *)
Definition str_of_N (n : N) : string := NilZero.string_of_uint (N.to_uint n).

(** The hundredths [0 .. 99] as two characters. *)
Definition two_digits (n : N) : string :=
  str_of_N (n / 10 mod 10) ++ str_of_N (n mod 10).

(** [format(x, ".2f")] of a finite value: sign, integer part, point, two
    decimals; the value is rounded to the nearest hundredth. *)
Definition format_2f_Q (q : Q) : string :=
  let h := Z.to_N (round_half_even (Qabs q * 100)) in
  (if (Qnum q <? 0)%Z then "-" else "")
    ++ str_of_N (h / 100) ++ "." ++ two_digits (h mod 100).

Definition format_2f (x : npfloat) : string :=
  match x with
  | Fin q => format_2f_Q q
  | NaN => "nan"
  end.

(** ** The classifier wrapper *)

(** [pd.DataFrame(data)]: the columns are the keys of the dicts, so a frame
    built from the empty list has no column at all. *)
Record DataFrame : Type := mkDataFrame
  { columns : list string;
    rows : list entry }.

Definition pd_DataFrame (data : list entry) : DataFrame :=
  {| columns := match data with
                | [] => []
                | _ :: _ => ["HR"; "TEMP"; "datetime"]
                end;
     rows := data |}.

(** [df["TEMP"].values] *)
Definition df_TEMP_values (df : DataFrame) : result (list Q) :=
  if existsb (String.eqb "TEMP") (columns df)
  then Ok (map TEMP (rows df))
  else Raise (KeyError "TEMP").

(** [df.drop(columns=["datetime"]).values]: one row [HR, TEMP] per sample. *)
Definition df_features (df : DataFrame) : list (list Q) :=
  map (fun e => [HR e; TEMP e]) (rows df).

(** [(TEMP < 26) | (TEMP > 38)], elementwise. *)
Definition out_of_range (t : Q) : bool := Qlt_bool t 26 || Qlt_bool 38 t.

(** [sum(mask)] of a boolean array. *)
Definition count_true (mask : list bool) : nat :=
  fold_right (fun (b : bool) (n : nat) => if b then S n else n) O mask.

Inductive label : Type := Resilient | Adaptive | Overwhelmed.

Definition label_name (l : label) : string :=
  match l with
  | Resilient => "Resilient"
  | Adaptive => "Adaptive"
  | Overwhelmed => "Overwhelmed"
  end.

(** Lines 58-63. *)
Definition threshold (avg_stress : npfloat) : label :=
  if np_lt avg_stress (25 # 100) then Resilient
  else if np_lt avg_stress (75 # 100) then Adaptive
  else Overwhelmed.

(** Line 56. *)
Definition average (P : list Q) : npfloat :=
  np_true_divide (np_sum P) (Z.of_nat (List.length P) * 2).

Definition temperature_message : string :=
  "The temperature should be between 26 and 38".

Definition failure_dict (msg : string) : dict :=
  [("status", JStr "failure"); ("message", JStr msg)].

Definition success_dict (avg_stress : npfloat) : dict :=
  [("status", JStr "success");
   ("stress", JStr (label_name (threshold avg_stress)));
   ("average_stress", JStr (format_2f (np_mul avg_stress 100) ++ "%"))].

(** The fitted model: [None] when loading it or predicting raises. *)
Definition classifier := list (list Q) -> option (list Q).

Definition predict_stress_from_data (model : classifier) (data : list entry)
  : result dict :=
  let df := pd_DataFrame data in
  match df_TEMP_values df with
  | Raise e => Raise e
  | Ok temps =>
      if negb (count_true (map out_of_range temps) =? 0)%nat
      then Ok (failure_dict temperature_message)
      else
        match model (df_features df) with
        | None => Raise ModelFault
        | Some P => Ok (success_dict (average P))
        end
  end.

(** ** The globals, the database and the collaborators *)

(** The document handed to [collection.insert_one]; the two gaze fields are
    present only in the documents written by [stop_all_logging]. *)
Record candidate_record : Type := mkCandidate
  { candidateId : option string;
    averageStress : json;
    stressStatus : json;
    gaze_patterns : option json;
    focus_index : option json;
    biometrics : list entry }.

(** The module-level variables of lines 26-28 and the documents stored in
    [collection] so far. *)
Record world : Type := mkWorld
  { buffered_data : list entry;
    is_logging : bool;
    current_id : option string;
    collection : list candidate_record }.

(** What the collaborators do during one request. *)
Record collaborators : Type := mkCollaborators
  { model : classifier;
    insert_one_ok : bool;               (* false: insert_one raises *)
    start_logging_ok : bool;            (* false: start_logging() raises *)
    stop_logging_result : option dict   (* None: stop_logging() raises *) }.

Record response : Type := mkResponse
  { body : json;
    status_code : nat }.

(** ** Computations over the globals *)

Module Handler.

Definition t (A : Type) : Type := world -> result A * world.

Definition ret {A} (a : A) : t A := fun w => (Ok a, w).

Definition bind {A B} (c : t A) (k : A -> t B) : t B :=
  fun w =>
    match c w with
    | (Ok a, w') => k a w'
    | (Raise e, w') => (Raise e, w')
    end.

Definition raise {A} (e : exn) : t A := fun w => (Raise e, w).

Definition lift {A} (r : result A) : t A := fun w => (r, w).

Definition read {A} (f : world -> A) : t A := fun w => (Ok (f w), w).

Definition set_buffered_data (l : list entry) : t unit :=
  fun w => (Ok tt, mkWorld l (is_logging w) (current_id w) (collection w)).

Definition set_is_logging (b : bool) : t unit :=
  fun w => (Ok tt, mkWorld (buffered_data w) b (current_id w) (collection w)).

Definition set_current_id (i : option string) : t unit :=
  fun w => (Ok tt, mkWorld (buffered_data w) (is_logging w) i (collection w)).

End Handler.

Declare Scope handler_scope.
Delimit Scope handler_scope with handler.
Notation "x <- c ;; k" := (Handler.bind c (fun x => k))
  (at level 61, c at next level, right associativity) : handler_scope.
Notation "c ;; k" := (Handler.bind c (fun _ => k))
  (at level 61, right associativity) : handler_scope.
Local Open Scope handler_scope.

(** [collection.insert_one(record)] *)
Definition insert_one (c : collaborators) (r : candidate_record)
  : Handler.t unit :=
  fun w =>
    if insert_one_ok c
    then (Ok tt, mkWorld (buffered_data w) (is_logging w) (current_id w)
                         (collection w ++ [r])%list)
    else (Raise PersistenceFault, w).

(** [start_logging()] of the gaze tracker. *)
Definition start_logging (c : collaborators) : Handler.t unit :=
  if start_logging_ok c then Handler.ret tt else Handler.raise GazeFault.

(** [stop_logging()] of the gaze tracker. *)
Definition stop_logging (c : collaborators) : Handler.t dict :=
  match stop_logging_result c with
  | Some d => Handler.ret d
  | None => Handler.raise GazeFault
  end.

(** Truth value of [body.get('id')]: [None] and the empty string are false. *)
Definition truthy (v : option string) : bool :=
  match v with
  | Some s => negb (s =? "")
  | None => false
  end.

Definition id_text (v : option string) : string :=
  match v with
  | Some s => s
  | None => "None"
  end.

Definition status_message (status msg : string) : json :=
  JObj [("status", JStr status); ("message", JStr msg)].

(** ** The handlers *)

(** [POST /startLogging], lines 97-108.  The argument is [body.get('id')]. *)
Definition start_logging_stress (id : option string) : Handler.t response :=
  Handler.set_current_id id ;;
  if negb (truthy id)
  then Handler.ret (mkResponse (status_message "failure" "ID is required") 400)
  else
    Handler.set_is_logging true ;;
    Handler.set_buffered_data [] ;;
    Handler.ret
      (mkResponse
         (status_message "success" ("Logging started for ID " ++ id_text id))
         200).

Definition not_active : response :=
  mkResponse (status_message "failure" "Logging is not currently active") 400.

(** [POST /stopLogging], lines 111-136. *)
Definition stop_logging_stress (c : collaborators) : Handler.t response :=
  logging <- Handler.read is_logging ;;
  if (logging : bool) then
    data <- Handler.read buffered_data ;;
    stress_result <- Handler.lift (predict_stress_from_data (model c) data) ;;
    cid <- Handler.read current_id ;;
    avg <- Handler.lift (getitem stress_result "average_stress") ;;
    st <- Handler.lift (getitem stress_result "stress") ;;
    bio <- Handler.read buffered_data ;;
    insert_one c (mkCandidate cid avg st None None bio) ;;
    Handler.set_buffered_data [] ;;
    Handler.set_is_logging false ;;
    Handler.set_current_id None ;;
    Handler.ret
      (mkResponse
         (JObj [("status", JStr "success");
                ("message", JStr "Logging stopped and data saved to MongoDB");
                ("stress_result", JObj stress_result)])
         200)
  else Handler.ret not_active.

Inductive http_method : Type := GET | POST.

(** The JSON body of [POST /data]: a field is [None] when it is absent or
    [null], which is what [data.get(key, None)] cannot tell apart. *)
Record sensor_body : Type := mkSensorBody
  { bpm : option Q;
    temperature : option Q }.

(** [buffered_data[-1]] on a non-empty list. *)
Definition latest (l : list entry) : option entry := last (map Some l) None.

(** [/data], lines 200-239.  [now] is the formatted [datetime.now()]. *)
Definition receive_data (method : http_method) (data : sensor_body)
    (now : string) : Handler.t response :=
  match method with
  | POST =>
      match bpm data, temperature data with
      | Some b, Some t =>
          buf <- Handler.read buffered_data ;;
          Handler.set_buffered_data (buf ++ [mkEntry b t now])%list ;;
          Handler.ret (mkResponse (JObj [("status", JStr "success")]) 200)
      | _, _ =>
          Handler.ret
            (mkResponse
               (status_message "failure" "Missing bpm or temperature") 400)
      end
  | GET =>
      buf <- Handler.read buffered_data ;;
      match latest buf with
      | Some latest_data =>
          Handler.ret
            (mkResponse
               (JObj [("status", JStr "success");
                      ("bpm", JNum (HR latest_data));
                      ("temperature", JNum (TEMP latest_data));
                      ("datetime", JStr (datetime latest_data))])
               200)
      | None =>
          Handler.ret
            (mkResponse (status_message "failure" "No data available") 404)
      end
  end.

(** [POST /startAll], lines 241-259. *)
Definition start_all_logging (c : collaborators) (id : option string)
  : Handler.t response :=
  Handler.set_current_id id ;;
  if negb (truthy id)
  then Handler.ret (mkResponse (status_message "failure" "ID is required") 400)
  else
    Handler.set_is_logging true ;;
    Handler.set_buffered_data [] ;;
    start_logging c ;;
    Handler.ret
      (mkResponse
         (status_message "success" "Logging started for both stress and gaze.")
         200).

(** [POST /stopAll], lines 261-296. *)
Definition stop_all_logging (c : collaborators) : Handler.t response :=
  logging <- Handler.read is_logging ;;
  if (logging : bool) then
    data <- Handler.read buffered_data ;;
    stress_result <- Handler.lift (predict_stress_from_data (model c) data) ;;
    gaze_result <- stop_logging c ;;
    cid <- Handler.read current_id ;;
    avg <- Handler.lift (getitem stress_result "average_stress") ;;
    st <- Handler.lift (getitem stress_result "stress") ;;
    gp <- Handler.lift (getitem gaze_result "gaze_patterns") ;;
    fi <- Handler.lift (getitem gaze_result "focus_index") ;;
    bio <- Handler.read buffered_data ;;
    insert_one c (mkCandidate cid avg st (Some gp) (Some fi) bio) ;;
    Handler.set_buffered_data [] ;;
    Handler.set_is_logging false ;;
    Handler.set_current_id None ;;
    fi' <- Handler.lift (getitem gaze_result "focus_index") ;;
    Handler.ret
      (mkResponse
         (JObj [("status", JStr "success");
                ("message", JStr "Logging stopped and data saved to MongoDB");
                ("stress_result", JObj stress_result);
                ("gaze_result", fi')])
         200)
  else Handler.ret not_active.

(** The state of the module when it has just been imported. *)
Definition initial : world := mkWorld [] false None [].

(** ** Specification vocabulary *)

(** The temperature constraint of the classifier, on exact values. *)
Definition in_range (t : Q) : Prop := 26 <= t /\ t <= 38.

Definition outside_range (t : Q) : Prop := t < 26 \/ 38 < t.

(** The session is Active exactly when [is_logging] holds; the candidate
    identifier is set when [current_id] is not [None]. *)
Definition id_is_set (w : world) : bool :=
  match current_id w with
  | Some _ => true
  | None => false
  end.

Definition id_iff_active (w : world) : bool :=
  Bool.eqb (id_is_set w) (is_logging w).


Definition is_digit (c : ascii) : bool :=
  let n := nat_of_ascii c in ((48 <=? n) && (n <=? 57))%nat.

Fixpoint all_digits (s : string) : bool :=
  match s with
  | EmptyString => true
  | String c s' => is_digit c && all_digits s'
  end.

(** [int(s)] for a decimal numeral. *)
Definition int_of_str (s : string) : option N :=
  option_map N.of_uint (NilZero.uint_of_string s).

(** [s] is [x] written with exactly two decimals: an optional minus sign,
    the digits of the integer part, a point and two digits, where the
    hundredths [h] that the digits denote are nearest to [|x| * 100]. *)
Definition two_decimals (s : string) (x : Q) : Prop :=
  exists (ip fp : string) (h : N),
    s = (if (Qnum x <? 0)%Z then "-" else "") ++ ip ++ "." ++ fp
    /\ all_digits ip = true
    /\ all_digits fp = true
    /\ String.length fp = 2%nat
    /\ int_of_str ip = Some (h / 100)%N
    /\ int_of_str fp = Some (h mod 100)%N
    /\ inject_Z (Z.of_N h) - (1 # 2) <= Qabs x * 100
    /\ Qabs x * 100 <= inject_Z (Z.of_N h) + (1 # 2).

Definition two_digits_ok (k : N) : bool :=
  all_digits (two_digits k)
  && (String.length (two_digits k) =? 2)%nat
  && match int_of_str (two_digits k) with
     | Some k' => (k' =? k)%N
     | None => false
     end.

(** ** Answers and documents of the handlers *)

(** The answer of a successful [POST /stopLogging]. *)
Definition stopped_response (stress_result : dict) : response :=
  mkResponse
    (JObj [("status", JStr "success");
           ("message", JStr "Logging stopped and data saved to MongoDB");
           ("stress_result", JObj stress_result)])
    200.

(** The document a successful [POST /stopLogging] stores. *)
Definition stored_record (w : world) (a : npfloat) : candidate_record :=
  mkCandidate (current_id w)
    (JStr (format_2f (np_mul a 100) ++ "%"))
    (JStr (label_name (threshold a)))
    None None (buffered_data w).

Definition data_accepted : response :=
  mkResponse (JObj [("status", JStr "success")]) 200.

Definition data_rejected : response :=
  mkResponse (status_message "failure" "Missing bpm or temperature") 400.

(** ** Concrete sessions used in the examples below *)

(** A classifier that predicts class 1 for every row. *)
Definition constant_model : classifier := fun X => Some (map (fun _ => 1) X).

(** A classifier that predicts class 1 for a heart rate of 80 or more and
    class 0 below. *)
Definition alternating_model : classifier :=
  fun X => Some (map (fun row => match row with
                                 | [hr; _] => if Qle_bool 80 hr then 1 else 0
                                 | _ => 0
                                 end) X).

Definition gaze_summary : dict :=
  [("gaze_patterns", JStr "centre"); ("focus_index", JNum (9 # 10))].

(** Every collaborator answers. *)
Definition all_fine : collaborators :=
  mkCollaborators constant_model true true (Some gaze_summary).

(** The database is down. *)
Definition mongo_down : collaborators :=
  mkCollaborators constant_model false true (Some gaze_summary).

(** The gaze tracker cannot start. *)
Definition camera_down : collaborators :=
  mkCollaborators constant_model true false None.

(** Session "C1" is Active and holds the given samples. *)
Definition active_C1 (samples : list entry) : world :=
  mkWorld samples true (Some "C1") [].

(** A sample at 30 degrees. *)
Definition warm : entry := mkEntry 72 30 "2024-05-01 10:00:00".

(** A sample at 40 degrees, above the accepted range. *)
Definition feverish : entry := mkEntry 72 40 "2024-05-01 10:00:01".

(** Four samples at valid temperatures, which [alternating_model] predicts
    1, 0, 1, 0: avgStress is exactly 0.25. *)
Definition four_samples : list entry :=
  [mkEntry 85 30 "2024-05-01 10:00:00"; mkEntry 70 31 "2024-05-01 10:00:01";
   mkEntry 90 29 "2024-05-01 10:00:02"; mkEntry 65 32 "2024-05-01 10:00:03"].

(** The [POST /data] request that delivers sample [e]. *)
Definition post (e : entry) : Handler.t response :=
  receive_data POST (mkSensorBody (Some (HR e)) (Some (TEMP e))) (datetime e).

(** ** Requests and sequences of requests *)

(** The requests of the stress-logging routes. *)
Inductive request : Type :=
| StartLogging (id : option string)
| StopLogging
| Data (method : http_method) (data : sensor_body) (now : string)
| StartAll (id : option string)
| StopAll.

Definition handle (c : collaborators) (r : request) : Handler.t response :=
  match r with
  | StartLogging id => start_logging_stress id
  | StopLogging => stop_logging_stress c
  | Data method data now => receive_data method data now
  | StartAll id => start_all_logging c id
  | StopAll => stop_all_logging c
  end.

(** The globals and the database after a list of requests served one after
    the other; each request comes with what the collaborators do during it.
    A request that raises leaves the world as it was at the raise. *)
Fixpoint serve (rs : list (collaborators * request)) (w : world) : world :=
  match rs with
  | [] => w
  | (c, r) :: rs' => serve rs' (snd (handle c r w))
  end.

(** The [POST /data] requests that deliver the samples [es] in order. *)
Definition posts (c : collaborators) (es : list entry)
  : list (collaborators * request) :=
  map (fun e => (c, Data POST (mkSensorBody (Some (HR e)) (Some (TEMP e)))
                          (datetime e))) es.

Definition is_data (r : request) : bool :=
  match r with
  | Data _ _ _ => true
  | _ => false
  end.

(** A usable identifier is held only by an Active session. *)
Definition id_implies_active (w : world) : Prop :=
  truthy (current_id w) = true -> is_logging w = true.

(** A stored document that came out of a successful classification: it has
    samples, all of them inside the temperature range, and its two stress
    fields are the label and the percentage of one aggregate. *)
Definition classified_record (r : candidate_record) : Prop :=
  biometrics r <> []
  /\ Forall (fun e => in_range (TEMP e)) (biometrics r)
  /\ exists a : npfloat,
       averageStress r = JStr (format_2f (np_mul a 100) ++ "%")
       /\ stressStatus r = JStr (label_name (threshold a)).

(** The labels in increasing order of stress. *)
Definition label_rank (l : label) : nat :=
  match l with
  | Resilient => 0
  | Adaptive => 1
  | Overwhelmed => 2
  end.

(** What the model sees of a sample. *)
Definition reading (e : entry) : Q * Q := (HR e, TEMP e).

(** ** The camera route *)

(** [key in d] *)
Definition contains (d : dict) (key : string) : bool :=
  existsb (fun kv => String.eqb (fst kv) key) d.

Definition name_required : response :=
  mkResponse (JStr "Error: 'name' field is required.") 400.

(** [POST /startLoggingCam], lines 74-81.  [data] is the JSON object of the
    request ([None] for a [null] body); [tracker] is [start_logging] called
    with a name, whose answer is returned as it is. *)
Definition start_logging_endpoint (tracker : json -> result response)
    (data : option dict) : result response :=
  match data with
  | None => Ok name_required
  | Some d =>
      if match d with [] => true | _ :: _ => false end
         || negb (contains d "name")
      then Ok name_required
      else
        match getitem d "name" with
        | Raise e => Raise e
        | Ok name => tracker name
        end
  end.

(** ** Answers and documents of [stop_all_logging] *)

(** The answer of a successful [POST /stopAll]: of the gaze summary only
    the focus index is reported. *)
Definition stopped_all_response (stress_result : dict) (fi : json) : response :=
  mkResponse
    (JObj [("status", JStr "success");
           ("message", JStr "Logging stopped and data saved to MongoDB");
           ("stress_result", JObj stress_result);
           ("gaze_result", fi)])
    200.

(** The document a successful [POST /stopAll] stores. *)
Definition stored_gaze_record (w : world) (a : npfloat) (gp fi : json)
  : candidate_record :=
  mkCandidate (current_id w)
    (JStr (format_2f (np_mul a 100) ++ "%"))
    (JStr (label_name (threshold a)))
    (Some gp) (Some fi) (buffered_data w).

(** A stop either leaves the world as it found it and does not answer 200,
    or answers 200 having stored one document, made of the identifier and
    the buffer it found, and having reset the three globals. *)
Definition all_or_nothing (h : Handler.t response) (w : world) : Prop :=
  (snd (h w) = w
   /\ forall resp, fst (h w) = Ok resp -> status_code resp = 400%nat)
  \/ (exists resp rec,
        h w = (Ok resp, mkWorld [] false None (collection w ++ [rec])%list)
        /\ status_code resp = 200%nat
        /\ is_logging w = true
        /\ candidateId rec = current_id w
        /\ biometrics rec = buffered_data w
        /\ classified_record rec).

(** ** The body of [/data] before its fields are read *)

(** What [request.get_json()] returns at line 206: a JSON object, whose two
    fields lines 207-208 read with [.get], or another JSON value ([null],
    a number, a string, an array), which has no [.get]. *)
Inductive data_body : Type :=
| ObjectBody (fields : sensor_body)
| OtherBody.

(** [/data] from the parsed body on.  Only the POST branch reads the body;
    [data.get] on a value that is not an object raises [AttributeError]
    before anything is assigned. *)
Definition receive_data_request (method : http_method) (body : data_body)
    (now : string) : Handler.t response :=
  match method, body with
  | POST, ObjectBody d => receive_data POST d now
  | POST, OtherBody => Handler.raise (AttributeError "get")
  | GET, _ => receive_data GET (mkSensorBody None None) now
  end.

(** * Proofs *)

Ltac run_handler :=
  unfold stop_logging_stress, stop_all_logging, start_logging_stress,
    start_all_logging, receive_data, insert_one, start_logging, stop_logging,
    Handler.bind, Handler.read, Handler.lift, Handler.ret, Handler.raise,
    Handler.set_buffered_data, Handler.set_is_logging, Handler.set_current_id.

(** Closes one direction of a characterisation of an outcome once the
    outcome has been computed. *)
Ltac outcome_case :=
  unfold failure_dict, success_dict in *;
  repeat match goal with
         | H : _ /\ _ |- _ => destruct H
         | H : exists _, _ |- _ => destruct H
         | H : Exists _ [] |- _ => inversion H
         end;
  try congruence; try discriminate; try contradiction;
  try (repeat split; (assumption || discriminate || congruence));
  try (eexists; reflexivity).

(** ** Facts about the temperature check *)

Lemma Qlt_bool_iff x y : Qlt_bool x y = true <-> x < y.
Proof.
  unfold Qlt_bool. rewrite negb_true_iff, <- not_true_iff_false, Qle_bool_iff.
  split; [apply Qnot_le_lt | apply Qlt_not_le].
Qed.

Lemma out_of_range_true t : out_of_range t = true <-> outside_range t.
Proof.
  unfold out_of_range, outside_range.
  now rewrite orb_true_iff, !Qlt_bool_iff.
Qed.

Lemma out_of_range_false t : out_of_range t = false <-> in_range t.
Proof.
  rewrite <- not_true_iff_false, out_of_range_true.
  unfold outside_range, in_range. split.
  - intros H. split; apply Qnot_lt_le; intros L; apply H; auto.
  - intros [H1 H2] [L | L]; [apply (Qlt_not_le _ _ L H1) | apply (Qlt_not_le _ _ L H2)].
Qed.

Lemma count_true_in_range (data : list entry) :
  Forall (fun e => in_range (TEMP e)) data ->
  count_true (map out_of_range (map TEMP data)) = O.
Proof.
  induction 1 as [| e data He _ IH]; [reflexivity |].
  cbn [map count_true fold_right].
  apply out_of_range_false in He. rewrite He. exact IH.
Qed.

Lemma count_true_outside (data : list entry) :
  Exists (fun e => outside_range (TEMP e)) data ->
  count_true (map out_of_range (map TEMP data)) <> O.
Proof.
  induction 1 as [e data He | e data _ IH]; cbn [map count_true fold_right].
  - apply out_of_range_true in He. rewrite He. discriminate.
  - destruct (out_of_range (TEMP e)); [discriminate | exact IH].
Qed.

(** What [predict_stress_from_data] does on each kind of buffer. *)

Lemma predict_empty (m : classifier) :
  predict_stress_from_data m [] = Raise (KeyError "TEMP").
Proof. reflexivity. Qed.

Lemma predict_outside (m : classifier) (data : list entry) :
  Exists (fun e => outside_range (TEMP e)) data ->
  predict_stress_from_data m data = Ok (failure_dict temperature_message).
Proof.
  intros H. pose proof (count_true_outside data H) as Hc.
  destruct data as [| e data]; [inversion H |].
  unfold predict_stress_from_data, df_TEMP_values, pd_DataFrame.
  cbn [columns rows existsb String.eqb Ascii.eqb Bool.eqb orb].
  destruct (Nat.eqb_spec (count_true (map out_of_range (map TEMP (e :: data)))) 0);
    [contradiction | reflexivity].
Qed.

Lemma predict_in_range (m : classifier) (data : list entry) :
  data <> [] ->
  Forall (fun e => in_range (TEMP e)) data ->
  predict_stress_from_data m data =
    match m (df_features (pd_DataFrame data)) with
    | None => Raise ModelFault
    | Some P => Ok (success_dict (average P))
    end.
Proof.
  intros Hne H. pose proof (count_true_in_range data H) as Hc.
  destruct data as [| e data]; [congruence |].
  unfold predict_stress_from_data, df_TEMP_values.
  cbn [pd_DataFrame columns rows existsb String.eqb Ascii.eqb Bool.eqb orb].
  rewrite Hc. reflexivity.
Qed.

(** ** Stopping a session *)

(** C3 (evaluation at the failing input): with one buffered sample of
    temperature 40 the classifier wrapper returns its failure dict, without
    any label or score, but [stop_logging_stress] then subscripts that dict
    with "average_stress": the request ends in an unhandled [KeyError], not
    in a response whose body carries the failure status. *)
Theorem stop_out_of_range_is_unhandled (c : collaborators) :
  predict_stress_from_data (model c) [feverish]
    = Ok (failure_dict temperature_message)
  /\ getitem (failure_dict temperature_message) "stress" = Raise (KeyError "stress")
  /\ stop_logging_stress c (active_C1 [feverish])
    = (Raise (KeyError "average_stress"), active_C1 [feverish]).
Proof. repeat split. Qed.

(** C9: when a buffered temperature is outside [26, 38] at stop, the
    request raises before [insert_one] is reached and before any global is
    reassigned: the database, the buffer, [is_logging] and [current_id] are
    exactly what they were.  The same holds for [stop_all_logging]. *)
Theorem stop_out_of_range_changes_nothing (c : collaborators) (w : world) :
  is_logging w = true ->
  Exists (fun e => outside_range (TEMP e)) (buffered_data w) ->
  stop_logging_stress c w = (Raise (KeyError "average_stress"), w)
  /\ exists e, stop_all_logging c w = (Raise e, w).
Proof.
  intros Hlog Hout. split.
  - run_handler. rewrite Hlog, (predict_outside _ _ Hout). reflexivity.
  - run_handler. rewrite Hlog, (predict_outside _ _ Hout).
    destruct (stop_logging_result c); eexists; reflexivity.
Qed.

Lemma stop_out_of_range_changes_nothing_witness :
  stop_logging_stress all_fine (active_C1 [warm; feverish])
    = (Raise (KeyError "average_stress"), active_C1 [warm; feverish])
  /\ exists e, stop_all_logging all_fine (active_C1 [warm; feverish])
               = (Raise e, active_C1 [warm; feverish]).
Proof.
  apply (stop_out_of_range_changes_nothing all_fine (active_C1 [warm; feverish])).
  - reflexivity.
  - apply Exists_cons_tl, Exists_cons_hd. right. reflexivity.
Defined.

(** C4 (counterexample): session "C1" is Active with one valid sample and
    the database insert faults.  The fault reaches the caller, and the
    buffer still holds the sample and the session is still Active. *)
Lemma stop_persist_fault_no_reset :
  let after := snd (stop_logging_stress mongo_down (active_C1 [warm])) in
  fst (stop_logging_stress mongo_down (active_C1 [warm])) = Raise PersistenceFault
  /\ ~ (buffered_data after = [] /\ is_logging after = false).
Proof.
  split; [reflexivity |].
  intros [H _]. discriminate H.
Qed.

(** C4 (amended): for a stop made while Active whose classification
    succeeded, the reset follows the insert.  When [insert_one] succeeds the
    document is stored and the globals are reset; when it faults the fault
    is raised to the caller and nothing has been reset. *)
Theorem stop_resets_after_persist (c : collaborators) (w : world) (a : npfloat) :
  is_logging w = true ->
  predict_stress_from_data (model c) (buffered_data w) = Ok (success_dict a) ->
  stop_logging_stress c w =
    if insert_one_ok c
    then (Ok (stopped_response (success_dict a)),
          mkWorld [] false None (collection w ++ [stored_record w a])%list)
    else (Raise PersistenceFault, w).
Proof.
  intros Hlog Hcls. run_handler. rewrite Hlog, Hcls.
  cbn [getitem success_dict String.eqb Ascii.eqb Bool.eqb].
  destruct (insert_one_ok c); reflexivity.
Qed.

Lemma stop_resets_after_persist_witness :
  stop_logging_stress mongo_down (active_C1 [warm])
    = (Raise PersistenceFault, active_C1 [warm])
  /\ stop_logging_stress all_fine (active_C1 [warm])
    = (Ok (stopped_response (success_dict (Fin (1 / inject_Z 2)))),
       mkWorld [] false None [stored_record (active_C1 [warm]) (Fin (1 / inject_Z 2))]).
Proof.
  split.
  - apply (stop_resets_after_persist mongo_down (active_C1 [warm]) (Fin (1 / inject_Z 2)));
      reflexivity.
  - apply (stop_resets_after_persist all_fine (active_C1 [warm]) (Fin (1 / inject_Z 2)));
      reflexivity.
Defined.

(** C5 (evaluation at the failing input): a stop made while Active with an
    empty buffer builds a frame without columns, and [df["TEMP"]] raises
    [KeyError]; the fault is not converted into an insufficient-data
    failure, it leaves the handler as it is. *)
Theorem stop_empty_buffer_raises_keyerror
    (c : collaborators) (id : option string) (db : list candidate_record) :
  stop_logging_stress c (mkWorld [] true id db)
    = (Raise (KeyError "TEMP"), mkWorld [] true id db).
Proof. reflexivity. Qed.

(** ** Starting a session *)

(** C6 (counterexample): from the initial Idle state, [POST /startAll] with
    id "C1" while the gaze tracker fails to start raises the fault, and the
    session is Active with "C1" adopted: the state is not what it was. *)
Lemma start_all_fault_is_active :
  let r := start_all_logging camera_down (Some "C1") initial in
  fst r = Raise GazeFault
  /\ is_logging (snd r) = true
  /\ current_id (snd r) = Some "C1"
  /\ snd r <> initial.
Proof. repeat split. discriminate. Qed.

(** C6 (amended): [start_all_logging] called with a valid id assigns the
    three globals first and calls the tracker last, so when the tracker's
    start hook fails the fault is propagated from a session that is already
    Active, with the new id and an empty buffer. *)
Theorem start_all_fault_after_transition
    (c : collaborators) (id : option string) (w : world) :
  truthy id = true ->
  start_logging_ok c = false ->
  start_all_logging c id w = (Raise GazeFault, mkWorld [] true id (collection w)).
Proof.
  intros Hid Hgaze. run_handler. rewrite Hid, Hgaze. reflexivity.
Qed.

Lemma start_all_fault_after_transition_witness :
  start_all_logging camera_down (Some "C1") (active_C1 [warm])
    = (Raise GazeFault, mkWorld [] true (Some "C1") []).
Proof.
  apply (start_all_fault_after_transition camera_down (Some "C1") (active_C1 [warm]));
    reflexivity.
Defined.

(** C7 (evaluation at the failing input): while session "C1" is Active, a
    [POST /startLogging] without an id is answered 400, but [current_id] was
    overwritten with [None] before the check: the session is still Active
    and has no candidate identifier. *)
Theorem rejected_start_clears_id (samples : list entry) :
  id_iff_active (active_C1 samples) = true
  /\ start_logging_stress None (active_C1 samples)
     = (Ok (mkResponse (status_message "failure" "ID is required") 400),
        mkWorld samples true None [])
  /\ id_iff_active (snd (start_logging_stress None (active_C1 samples))) = false.
Proof. repeat split. Qed.

(** ** Receiving sensor data *)

Lemma latest_snoc (l : list entry) (e : entry) : latest (l ++ [e]) = Some e.
Proof.
  unfold latest. rewrite map_app. apply last_last.
Qed.

(** For a JSON object as body: a [POST /data] carrying both fields appends
    the sample to the buffer and answers 200 success whatever [is_logging]
    is (the other globals are untouched), and a following [GET /data]
    reports that sample; an object lacking either field answers 400. *)
Theorem post_data_always_buffers
    (b t : Q) (missing : option Q) (now : string) (w : world) :
  receive_data POST (mkSensorBody (Some b) (Some t)) now w
    = (Ok data_accepted,
       mkWorld (buffered_data w ++ [mkEntry b t now]) (is_logging w)
               (current_id w) (collection w))
  /\ fst ((receive_data POST (mkSensorBody (Some b) (Some t)) now ;;
           receive_data GET (mkSensorBody None None) now) w)
     = Ok (mkResponse
             (JObj [("status", JStr "success"); ("bpm", JNum b);
                    ("temperature", JNum t); ("datetime", JStr now)])
             200)
  /\ fst (receive_data POST (mkSensorBody None missing) now w) = Ok data_rejected
  /\ fst (receive_data POST (mkSensorBody missing None) now w) = Ok data_rejected
  /\ status_code data_rejected = 400%nat.
Proof.
  split; [reflexivity |]. split.
  - run_handler. cbn [bpm temperature buffered_data].
    rewrite latest_snoc. reflexivity.
  - repeat split; destruct missing; reflexivity.
Qed.

(** For a JSON object as body: on the 400 path of [POST /data] no global
    is assigned; in particular the buffer is the one the request found. *)
Theorem post_data_missing_field_no_append
    (present : option Q) (now : string) (w : world) :
  receive_data POST (mkSensorBody None present) now w = (Ok data_rejected, w)
  /\ receive_data POST (mkSensorBody present None) now w = (Ok data_rejected, w).
Proof. split; destruct present; reflexivity. Qed.

(** C8 (evaluation at the failing input): a [POST /data] whose JSON body
    is [null] (or any value that is not an object) carries neither field,
    and is not answered 400: line 207 calls [.get] on it and the request
    ends in an unhandled [AttributeError]. *)
Theorem post_data_non_object_unhandled (now : string) (w : world) :
  receive_data_request POST OtherBody now w = (Raise (AttributeError "get"), w).
Proof. reflexivity. Qed.

(** C10 (evaluation at the failing input): for the same request the 400
    failure response is not what the caller gets, although the buffer is
    indeed the one the request found. *)
Theorem post_data_non_object_not_rejected (now : string) (w : world) :
  fst (receive_data_request POST OtherBody now w) <> Ok data_rejected
  /\ buffered_data (snd (receive_data_request POST OtherBody now w))
     = buffered_data w.
Proof. split; [discriminate | reflexivity]. Qed.

(** On object bodies the request is the handler of the extracted fields. *)
Lemma receive_data_request_object
    (method : http_method) (d : sensor_body) (now : string) (w : world) :
  fst (receive_data_request method (ObjectBody d) now w)
  = fst (receive_data method d now w)
  /\ snd (receive_data_request method (ObjectBody d) now w)
     = snd (receive_data method d now w).
Proof.
  destruct method; [| split; reflexivity].
  unfold receive_data_request, receive_data. split; reflexivity.
Qed.

(** ** The label *)

Lemma threshold_resilient q : q < 1 # 4 -> threshold (Fin q) = Resilient.
Proof.
  intros H. unfold threshold, np_lt.
  assert (E : Qlt_bool q (25 # 100) = true) by (apply Qlt_bool_iff; lra).
  now rewrite E.
Qed.

Lemma threshold_adaptive q :
  1 # 4 <= q -> q < 3 # 4 -> threshold (Fin q) = Adaptive.
Proof.
  intros H1 H2. unfold threshold, np_lt.
  assert (E1 : Qlt_bool q (25 # 100) = false).
  { apply not_true_iff_false. rewrite Qlt_bool_iff. lra. }
  assert (E2 : Qlt_bool q (75 # 100) = true) by (apply Qlt_bool_iff; lra).
  now rewrite E1, E2.
Qed.





(** The two boundary values, run through the code. *)
Example boundary_quarter :
  predict_stress_from_data alternating_model four_samples
  = Ok [("status", JStr "success"); ("stress", JStr "Adaptive");
        ("average_stress", JStr "25.00%")].
Proof. reflexivity. Qed.

Example boundary_three_quarters :
  predict_stress_from_data (fun _ => Some [2; 1; 2; 1]) four_samples
  = Ok [("status", JStr "success"); ("stress", JStr "Overwhelmed");
        ("average_stress", JStr "75.00%")].
Proof. reflexivity. Qed.

(** ** The reported percentage *)

Lemma all_digits_string_of_uint (u : Decimal.uint) :
  all_digits (NilEmpty.string_of_uint u) = true.
Proof. induction u; cbn; auto. Qed.

Lemma all_digits_str_of_N (n : N) : all_digits (str_of_N n) = true.
Proof.
  unfold str_of_N, NilZero.string_of_uint.
  destruct (N.to_uint n) eqn:E; try reflexivity;
    rewrite <- E; apply all_digits_string_of_uint.
Qed.

Lemma to_uint_nonnil (n : N) : N.to_uint n <> Decimal.Nil.
Proof.
  destruct n as [| p]; [discriminate |].
  apply DecimalPos.Unsigned.to_uint_nonnil.
Qed.

Lemma int_of_str_of_N (n : N) : int_of_str (str_of_N n) = Some n.
Proof.
  unfold int_of_str, str_of_N.
  rewrite NilZero.usu by apply to_uint_nonnil.
  cbn. now rewrite DecimalN.Unsigned.of_to.
Qed.

Lemma two_digits_table :
  forallb two_digits_ok (map N.of_nat (seq 0 100)) = true.
Proof. vm_compute. reflexivity. Qed.

Lemma two_digits_spec (k : N) :
  (k < 100)%N ->
  all_digits (two_digits k) = true
  /\ String.length (two_digits k) = 2%nat
  /\ int_of_str (two_digits k) = Some k.
Proof.
  intros Hk.
  assert (Hin : In k (map N.of_nat (seq 0 100))).
  { rewrite <- (N2Nat.id k). apply in_map, in_seq. lia. }
  pose proof (proj1 (forallb_forall _ _) two_digits_table k Hin) as H.
  unfold two_digits_ok in H.
  apply andb_prop in H as [H H3]. apply andb_prop in H as [H1 H2].
  repeat split; [assumption | now apply Nat.eqb_eq |].
  destruct (int_of_str (two_digits k)) as [k' |]; [| discriminate].
  apply N.eqb_eq in H3. now subst.
Qed.

Lemma round_half_even_near (q : Q) :
  inject_Z (round_half_even q) - (1 # 2) <= q
  /\ q <= inject_Z (round_half_even q) + (1 # 2).
Proof.
  destruct q as [n d]. unfold round_half_even. cbn [Qnum Qden].
  pose proof (Z.div_mod n (Zpos d) ltac:(lia)) as Hdm.
  pose proof (Z.mod_pos_bound n (Zpos d) ltac:(lia)) as Hr.
  set (k := (n / Zpos d)%Z) in *. set (r := (n mod Zpos d)%Z) in *.
  assert (G : forall z : Z, (z = k \/ z = k + 1)%Z ->
             (2 * r <= Zpos d -> z = k \/ 2 * r = Zpos d)%Z ->
             (Zpos d <= 2 * r -> z = (k + 1)%Z \/ 2 * r = Zpos d)%Z ->
             inject_Z z - (1 # 2) <= n # d /\ n # d <= inject_Z z + (1 # 2)).
  { intros z Hz Hlo Hhi. unfold Qle, Qminus, Qplus, Qopp, inject_Z.
    cbn [Qnum Qden]. split; nia. }
  destruct (Z.compare_spec (2 * r) (Zpos d)) as [E | L | L].
  - destruct (Z.even k); apply G; lia.
  - apply G; lia.
  - apply G; lia.
Qed.

Lemma round_half_even_nonneg (q : Q) : 0 <= q -> (0 <= round_half_even q)%Z.
Proof.
  destruct q as [n d]. unfold Qle, round_half_even. cbn [Qnum Qden].
  intros Hn. assert (0 <= n / Zpos d)%Z by (apply Z.div_pos; lia).
  destruct (2 * (n mod Zpos d) ?= Zpos d)%Z; [destruct (Z.even _) | |]; lia.
Qed.

Lemma format_2f_Q_two_decimals (q : Q) : two_decimals (format_2f_Q q) q.
Proof.
  set (h := Z.to_N (round_half_even (Qabs q * 100))).
  assert (Hh : Z.of_N h = round_half_even (Qabs q * 100)).
  { apply Z2N.id, round_half_even_nonneg.
    apply Qmult_le_0_compat; [apply Qabs_nonneg | discriminate]. }
  destruct (two_digits_spec (h mod 100)) as (D1 & D2 & D3);
    [apply N.mod_lt; discriminate |].
  exists (str_of_N (h / 100)), (two_digits (h mod 100)), h.
  split; [reflexivity |].
  split; [apply all_digits_str_of_N |].
  split; [exact D1 |]. split; [exact D2 |].
  split; [apply int_of_str_of_N |].
  split; [now rewrite D3 |].
  rewrite Hh. apply round_half_even_near.
Qed.

Lemma average_finite (P : list Q) :
  P <> [] ->
  average P = Fin (np_sum P / inject_Z (Z.of_nat (List.length P) * 2)).
Proof.
  intros HP. unfold average, np_true_divide.
  destruct (Z.eqb_spec (Z.of_nat (List.length P) * 2) 0) as [E | _];
    [| reflexivity].
  destruct P; [congruence | cbn [List.length] in E; lia].
Qed.

(** One sample predicted 1 scores 50 percent: the sum is divided by twice
    the number of predictions. *)
Example divisor_is_twice_the_length :
  predict_stress_from_data constant_model [warm]
  = Ok [("status", JStr "success"); ("stress", JStr "Adaptive");
        ("average_stress", JStr "50.00%")].
Proof. reflexivity. Qed.

(** Rounding goes to the nearest hundredth, ties to the even one. *)
Example format_2f_third : format_2f (Fin (100 # 3)) = "33.33".
Proof. reflexivity. Qed.

Example format_2f_tie : format_2f (Fin (125 # 1000)) = "0.12".
Proof. reflexivity. Qed.

Example format_2f_nan : format_2f (np_mul (average []) 100) = "nan".
Proof. reflexivity. Qed.

(** ** Where the identifier and the Active flag stay in step *)

(** Every request other than a rejected start keeps "[current_id] is set
    iff the session is Active": stops (whatever their outcome), sensor
    data, and starts with a usable id. *)
Lemma id_iff_active_elsewhere (c : collaborators) (w : world) :
  id_iff_active w = true ->
  id_iff_active (snd (stop_logging_stress c w)) = true
  /\ id_iff_active (snd (stop_all_logging c w)) = true
  /\ (forall method data now,
        id_iff_active (snd (receive_data method data now w)) = true)
  /\ (forall id, truthy id = true ->
        id_iff_active (snd (start_logging_stress id w)) = true
        /\ id_iff_active (snd (start_all_logging c id w)) = true).
Proof.
  intros Hinv. split; [| split; [| split]].
  - run_handler. destruct (is_logging w); [| exact Hinv].
    destruct (predict_stress_from_data _ _) as [d |]; [| exact Hinv].
    destruct (getitem d "average_stress"); [| exact Hinv].
    destruct (getitem d "stress"); [| exact Hinv].
    destruct (insert_one_ok c); [reflexivity | exact Hinv].
  - run_handler. destruct (is_logging w); [| exact Hinv].
    destruct (predict_stress_from_data _ _) as [d |]; [| exact Hinv].
    destruct (stop_logging_result c) as [g |]; [| exact Hinv].
    destruct (getitem d "average_stress"); [| exact Hinv].
    destruct (getitem d "stress"); [| exact Hinv].
    destruct (getitem g "gaze_patterns"); [| exact Hinv].
    destruct (getitem g "focus_index"); [| exact Hinv].
    destruct (insert_one_ok c); [reflexivity | exact Hinv].
  - intros method [b t] now. run_handler.
    destruct method; [destruct (latest _); exact Hinv |].
    destruct b, t; exact Hinv.
  - intros id Hid. run_handler. rewrite Hid.
    destruct id as [s |]; [| discriminate Hid].
    split; [reflexivity |]. destruct (start_logging_ok c); reflexivity.
Qed.

(** ** Whole sessions *)

(** Start "C1", four samples at 30, 31, 29 and 32 degrees, stop: the answer
    carries the label and the percentage, the document is stored and the
    session is Idle again with an empty buffer. *)
Example session_scenario :
  (start_logging_stress (Some "C1") ;;
   post (mkEntry 85 30 "10:00:00") ;; post (mkEntry 70 31 "10:00:01") ;;
   post (mkEntry 90 29 "10:00:02") ;; post (mkEntry 65 32 "10:00:03") ;;
   stop_logging_stress (mkCollaborators alternating_model true true None))
    initial
  = (Ok (stopped_response
           [("status", JStr "success"); ("stress", JStr "Adaptive");
            ("average_stress", JStr "25.00%")]),
     mkWorld [] false None
       [mkCandidate (Some "C1") (JStr "25.00%") (JStr "Adaptive") None None
          [mkEntry 85 30 "10:00:00"; mkEntry 70 31 "10:00:01";
           mkEntry 90 29 "10:00:02"; mkEntry 65 32 "10:00:03"]]).
Proof. reflexivity. Qed.

(** A stop while Idle is answered 400 and changes nothing. *)
Example stop_while_idle (c : collaborators) (w : world) :
  is_logging w = false -> stop_logging_stress c w = (Ok not_active, w).
Proof. intros H. run_handler. now rewrite H. Qed.

(** Temperatures just outside the bounds are rejected by the wrapper. *)
Example just_outside :
  predict_stress_from_data constant_model [mkEntry 72 (259 # 10) "10:00:00"]
    = Ok (failure_dict temperature_message)
  /\ predict_stress_from_data constant_model [warm; mkEntry 72 (381 # 10) "10:00:00"]
    = Ok (failure_dict temperature_message).
Proof. split; reflexivity. Qed.

(** The bounds themselves are accepted. *)
Example on_the_bounds :
  predict_stress_from_data constant_model
    [mkEntry 72 26 "10:00:00"; mkEntry 72 38 "10:00:01"]
  = Ok (success_dict (Fin ((1 + (1 + 0)) / inject_Z 4))).
Proof. reflexivity. Qed.

(** * Further properties of the handlers *)

(** ** Starting *)

(** X1: a start with a usable id is last-start-wins: whatever the session
    was, the buffer is emptied without being stored, the session is Active
    under the new id and the database is untouched; the same holds for
    [start_all_logging] when the tracker starts. *)
Theorem start_discards_buffer
    (c : collaborators) (id : option string) (w : world) :
  truthy id = true ->
  start_logging_ok c = true ->
  start_logging_stress id w
    = (Ok (mkResponse
             (status_message "success" ("Logging started for ID " ++ id_text id))
             200),
       mkWorld [] true id (collection w))
  /\ start_all_logging c id w
    = (Ok (mkResponse
             (status_message "success"
                "Logging started for both stress and gaze.")
             200),
       mkWorld [] true id (collection w)).
Proof.
  intros Hid Hgaze. run_handler. rewrite Hid, Hgaze. split; reflexivity.
Qed.

Lemma start_discards_buffer_witness :
  start_logging_stress (Some "C2") (active_C1 [warm; feverish])
    = (Ok (mkResponse
             (status_message "success" "Logging started for ID C2") 200),
       mkWorld [] true (Some "C2") [])
  /\ start_all_logging all_fine (Some "C2") (active_C1 [warm; feverish])
    = (Ok (mkResponse
             (status_message "success"
                "Logging started for both stress and gaze.")
             200),
       mkWorld [] true (Some "C2") []).
Proof.
  apply (start_discards_buffer all_fine (Some "C2") (active_C1 [warm; feverish]));
    reflexivity.
Defined.

(** X2: a start whose JSON body is an object in which "id" is absent,
    [null] or the empty string is answered 400 by both start routes,
    whatever the tracker would do; the buffer, the Active flag and the
    database are untouched, and [current_id] holds the rejected value. *)
Theorem start_without_id_rejected
    (c : collaborators) (id : option string) (w : world) :
  truthy id = false ->
  start_logging_stress id w
    = (Ok (mkResponse (status_message "failure" "ID is required") 400),
       mkWorld (buffered_data w) (is_logging w) id (collection w))
  /\ start_all_logging c id w
    = (Ok (mkResponse (status_message "failure" "ID is required") 400),
       mkWorld (buffered_data w) (is_logging w) id (collection w)).
Proof.
  intros Hid. run_handler. rewrite Hid. split; reflexivity.
Qed.

Lemma start_without_id_rejected_witness :
  start_logging_stress (Some "") (active_C1 [warm])
    = (Ok (mkResponse (status_message "failure" "ID is required") 400),
       mkWorld [warm] true (Some "") [])
  /\ start_all_logging camera_down (Some "") (active_C1 [warm])
    = (Ok (mkResponse (status_message "failure" "ID is required") 400),
       mkWorld [warm] true (Some "") []).
Proof.
  apply (start_without_id_rejected camera_down (Some "") (active_C1 [warm])).
  reflexivity.
Defined.

(** ** Stopping *)

(** X3: a stop while no session is Active is answered 400 by both stop
    routes and changes nothing, whatever the collaborators would do. *)
Theorem stop_while_idle_rejected (c : collaborators) (w : world) :
  is_logging w = false ->
  stop_logging_stress c w = (Ok not_active, w)
  /\ stop_all_logging c w = (Ok not_active, w).
Proof.
  intros H. run_handler. rewrite H. split; reflexivity.
Qed.

Lemma stop_while_idle_rejected_witness :
  stop_logging_stress mongo_down (mkWorld [warm] false None [])
    = (Ok not_active, mkWorld [warm] false None [])
  /\ stop_all_logging mongo_down (mkWorld [warm] false None [])
    = (Ok not_active, mkWorld [warm] false None []).
Proof.
  apply (stop_while_idle_rejected mongo_down (mkWorld [warm] false None [])).
  reflexivity.
Defined.

(** The dicts the classifier wrapper can return. *)
Lemma predict_ok_cases (m : classifier) (data : list entry) (d : dict) :
  predict_stress_from_data m data = Ok d ->
  (d = failure_dict temperature_message
   /\ Exists (fun e => outside_range (TEMP e)) data)
  \/ (exists P, m (df_features (pd_DataFrame data)) = Some P
                /\ d = success_dict (average P)
                /\ data <> []
                /\ Forall (fun e => in_range (TEMP e)) data).
Proof.
  intros H.
  assert (Hdec : Exists (fun e => outside_range (TEMP e)) data
                 \/ Forall (fun e => in_range (TEMP e)) data).
  { clear. induction data as [| e data [IH | IH]].
    - right. constructor.
    - left. now constructor 2.
    - destruct (out_of_range (TEMP e)) eqn:E.
      + left. constructor 1. now apply out_of_range_true.
      + right. constructor; [now apply out_of_range_false | exact IH]. }
  destruct Hdec as [Hout | Hin].
  - left. rewrite (predict_outside _ _ Hout) in H. injection H as <-. now split.
  - right. destruct data as [| e data]; [discriminate H |].
    rewrite predict_in_range in H by (assumption || discriminate).
    destruct (m (df_features (pd_DataFrame (e :: data)))) as [P |];
      [| discriminate H].
    injection H as <-. exists P. repeat split; (assumption || discriminate).
Qed.

(** What a stop does, in full. *)
Lemma stop_logging_stress_cases (c : collaborators) (w : world) :
  (snd (stop_logging_stress c w) = w
   /\ forall resp, fst (stop_logging_stress c w) = Ok resp -> resp = not_active)
  \/ (exists P,
        is_logging w = true
        /\ predict_stress_from_data (model c) (buffered_data w)
           = Ok (success_dict (average P))
        /\ buffered_data w <> []
        /\ Forall (fun e => in_range (TEMP e)) (buffered_data w)
        /\ stop_logging_stress c w
           = (Ok (stopped_response (success_dict (average P))),
              mkWorld [] false None
                (collection w ++ [stored_record w (average P)])%list)).
Proof.
  run_handler. destruct (is_logging w) eqn:Hlog.
  2:{ left. split; [reflexivity |]. intros resp [= <-]. reflexivity. }
  destruct (predict_stress_from_data (model c) (buffered_data w)) as [d |] eqn:Hd.
  2:{ left. split; [reflexivity | discriminate]. }
  destruct (predict_ok_cases _ _ _ Hd) as [[-> _] | (P & _ & -> & Hne & Hin)].
  { left. split; [reflexivity | discriminate]. }
  cbn [getitem success_dict String.eqb Ascii.eqb Bool.eqb].
  destruct (insert_one_ok c).
  - right. exists P. repeat split; assumption.
  - left. split; [reflexivity | discriminate].
Qed.

Lemma stop_all_logging_cases (c : collaborators) (w : world) :
  (snd (stop_all_logging c w) = w
   /\ forall resp, fst (stop_all_logging c w) = Ok resp -> resp = not_active)
  \/ (exists P g gp fi,
        is_logging w = true
        /\ predict_stress_from_data (model c) (buffered_data w)
           = Ok (success_dict (average P))
        /\ buffered_data w <> []
        /\ Forall (fun e => in_range (TEMP e)) (buffered_data w)
        /\ stop_logging_result c = Some g
        /\ getitem g "gaze_patterns" = Ok gp
        /\ getitem g "focus_index" = Ok fi
        /\ stop_all_logging c w
           = (Ok (stopped_all_response (success_dict (average P)) fi),
              mkWorld [] false None
                (collection w ++ [stored_gaze_record w (average P) gp fi])%list)).
Proof.
  run_handler. destruct (is_logging w) eqn:Hlog.
  2:{ left. split; [reflexivity |]. intros resp [= <-]. reflexivity. }
  destruct (predict_stress_from_data (model c) (buffered_data w)) as [d |] eqn:Hd.
  2:{ left. split; [reflexivity | discriminate]. }
  destruct (stop_logging_result c) as [g |] eqn:Hg.
  2:{ left. split; [reflexivity | discriminate]. }
  destruct (predict_ok_cases _ _ _ Hd) as [[-> _] | (P & _ & -> & Hne & Hin)].
  { left. split; [reflexivity | discriminate]. }
  cbn [getitem success_dict String.eqb Ascii.eqb Bool.eqb].
  destruct (getitem g "gaze_patterns") as [gp |] eqn:Hgp.
  2:{ left. split; [reflexivity | discriminate]. }
  destruct (getitem g "focus_index") as [fi |] eqn:Hfi.
  2:{ left. split; [reflexivity | discriminate]. }
  destruct (insert_one_ok c).
  - right. exists P, g, gp, fi. cbn. rewrite Hfi. repeat split; assumption.
  - left. split; [reflexivity | discriminate].
Qed.

(** X4: both stop routes are all-or-nothing.  On every buffer of finite
    numeric readings and whatever the collaborators do, a stop either
    changes neither a global nor the database (and then does not answer
    200), or it answers 200 after storing exactly one document, built from
    the identifier and the samples it found and from one successful
    classification, and resetting the three globals. *)
Theorem stop_is_all_or_nothing (c : collaborators) (w : world) :
  all_or_nothing (stop_logging_stress c) w
  /\ all_or_nothing (stop_all_logging c) w.
Proof.
  split.
  - destruct (stop_logging_stress_cases c w)
      as [[Hw Hr] | (P & Hlog & Hp & Hne & Hin & E)].
    + left. split; [exact Hw |]. intros resp H. now rewrite (Hr resp H).
    + right. exists (stopped_response (success_dict (average P))),
        (stored_record w (average P)).
      repeat split; try assumption.
      exists (average P). split; reflexivity.
  - destruct (stop_all_logging_cases c w)
      as [[Hw Hr] | (P & g & gp & fi & Hlog & Hp & Hne & Hin & Hg & Hgp & Hfi & E)].
    + left. split; [exact Hw |]. intros resp H. now rewrite (Hr resp H).
    + right. exists (stopped_all_response (success_dict (average P)) fi),
        (stored_gaze_record w (average P) gp fi).
      repeat split; try assumption.
      exists (average P). split; reflexivity.
Qed.

(** X5: what [stop_all_logging] does once the classification has
    succeeded.  The tracker is stopped first; if it faults, or its summary
    lacks "gaze_patterns" or "focus_index", or the insert faults, the
    request raises and the world is untouched; otherwise the document with
    both gaze fields is stored, the globals are reset, and the answer
    reports the stress result and the focus index only. *)
Theorem stop_all_after_classification
    (c : collaborators) (w : world) (a : npfloat) :
  is_logging w = true ->
  predict_stress_from_data (model c) (buffered_data w) = Ok (success_dict a) ->
  stop_all_logging c w =
    match stop_logging_result c with
    | None => (Raise GazeFault, w)
    | Some g =>
        match getitem g "gaze_patterns", getitem g "focus_index" with
        | Raise e, _ => (Raise e, w)
        | Ok _, Raise e => (Raise e, w)
        | Ok gp, Ok fi =>
            if insert_one_ok c
            then (Ok (stopped_all_response (success_dict a) fi),
                  mkWorld [] false None
                    (collection w ++ [stored_gaze_record w a gp fi])%list)
            else (Raise PersistenceFault, w)
        end
    end.
Proof.
  intros Hlog Hcls. run_handler. rewrite Hlog, Hcls.
  destruct (stop_logging_result c) as [g |]; [| reflexivity].
  cbn [getitem success_dict String.eqb Ascii.eqb Bool.eqb].
  destruct (getitem g "gaze_patterns") as [gp |]; [| reflexivity].
  destruct (getitem g "focus_index") as [fi |]; [| reflexivity].
  destruct (insert_one_ok c); reflexivity.
Qed.

Lemma stop_all_after_classification_witness :
  stop_all_logging all_fine (active_C1 [warm])
  = (Ok (stopped_all_response (success_dict (Fin (1 / inject_Z 2)))
           (JNum (9 # 10))),
     mkWorld [] false None
       [stored_gaze_record (active_C1 [warm]) (Fin (1 / inject_Z 2))
          (JStr "centre") (JNum (9 # 10))]).
Proof.
  apply (stop_all_after_classification all_fine (active_C1 [warm])
           (Fin (1 / inject_Z 2))); reflexivity.
Defined.

(** ** Sensor data *)

(** X6: [GET /data] never changes a global: on an empty buffer it answers
    404, on a non-empty one it answers 200 with the reading and the
    timestamp of the sample appended last. *)
Theorem get_data_reports_latest
    (d : sensor_body) (now : string) (l : list entry) (e : entry)
    (active : bool) (id : option string) (db : list candidate_record) :
  receive_data GET d now (mkWorld [] active id db)
    = (Ok (mkResponse (status_message "failure" "No data available") 404),
       mkWorld [] active id db)
  /\ receive_data GET d now (mkWorld (l ++ [e]) active id db)
    = (Ok (mkResponse
             (JObj [("status", JStr "success"); ("bpm", JNum (HR e));
                    ("temperature", JNum (TEMP e));
                    ("datetime", JStr (datetime e))])
             200),
       mkWorld (l ++ [e]) active id db).
Proof.
  split; [reflexivity |].
  run_handler. cbn [buffered_data]. rewrite latest_snoc. reflexivity.
Qed.

Lemma world_eta (w : world) :
  mkWorld (buffered_data w) (is_logging w) (current_id w) (collection w) = w.
Proof. now destruct w. Qed.

(** The world after a [/data] request: at most one sample appended. *)
Lemma receive_data_world method d now (w : world) :
  snd (receive_data method d now w) = w
  \/ exists e, snd (receive_data method d now w)
               = mkWorld (buffered_data w ++ [e]) (is_logging w)
                         (current_id w) (collection w).
Proof.
  destruct method.
  - left. run_handler. now destruct (latest (buffered_data w)).
  - destruct d as [[b |] [t |]]; try (left; reflexivity).
    right. exists (mkEntry b t now). reflexivity.
Qed.

(** The world after a run of [POST /data] requests. *)
Lemma serve_posts
    (c : collaborators) (es : list entry) (w : world) :
  serve (posts c es) w
  = mkWorld (buffered_data w ++ es) (is_logging w) (current_id w)
            (collection w).
Proof.
  revert w. induction es as [| e es IH]; intros w.
  - cbn. rewrite app_nil_r. symmetry. apply world_eta.
  - cbn [posts map serve handle]. fold (posts c es). rewrite IH.
    destruct e as [hr temp ts]. cbn. now rewrite <- app_assoc.
Qed.

(** X7: samples posted one after the other are buffered in the order of
    arrival, after what the buffer already held, whether or not a session is
    Active; nothing else changes. *)
Theorem posts_append_in_order
    (c : collaborators) (es : list entry) (w : world) :
  serve (posts c es) w
  = mkWorld (buffered_data w ++ es) (is_logging w) (current_id w)
            (collection w).
Proof. apply serve_posts. Qed.

Lemma serve_app rs1 rs2 (w : world) :
  serve (rs1 ++ rs2) w = serve rs2 (serve rs1 w).
Proof.
  revert w. induction rs1 as [| [c r] rs1 IH]; intros w; [reflexivity |].
  cbn [app serve]. apply IH.
Qed.

(** Requests to [/data] only ever extend the buffer. *)
Lemma serve_data_extends rs (w : world) :
  forallb (fun cr => is_data (snd cr)) rs = true ->
  exists es, serve rs w
             = mkWorld (buffered_data w ++ es) (is_logging w) (current_id w)
                       (collection w).
Proof.
  revert w. induction rs as [| [c r] rs IH]; intros w H.
  - exists []. cbn. rewrite app_nil_r. symmetry. apply world_eta.
  - cbn in H. apply andb_prop in H as [Hr Hrs].
    destruct r; try discriminate Hr.
    cbn [serve handle].
    destruct (receive_data_world method data now w) as [-> | [e ->]].
    + apply IH, Hrs.
    + destruct (IH (mkWorld (buffered_data w ++ [e]) (is_logging w)
                            (current_id w) (collection w)) Hrs) as [es ->].
      exists (e :: es). cbn. now rewrite <- app_assoc.
Qed.

(** ** Whole sessions, in general *)



(** X9: once a stop has answered 200 the session is over: a further stop on
    either route is answered 400 and stores nothing, and [GET /data]
    answers 404. *)
Theorem after_successful_stop
    (c c' : collaborators) (r : request) (w : world) (resp : response)
    (d : sensor_body) (now : string) :
  r = StopLogging \/ r = StopAll ->
  fst (handle c r w) = Ok resp ->
  status_code resp = 200%nat ->
  stop_logging_stress c' (snd (handle c r w))
    = (Ok not_active, snd (handle c r w))
  /\ stop_all_logging c' (snd (handle c r w))
    = (Ok not_active, snd (handle c r w))
  /\ fst (receive_data GET d now (snd (handle c r w)))
    = Ok (mkResponse (status_message "failure" "No data available") 404).
Proof.
  intros [-> | ->] Hresp Hcode; cbn [handle] in *.
  - destruct (stop_logging_stress_cases c w)
      as [[_ Hr] | (P & _ & _ & _ & _ & E)].
    + rewrite (Hr resp Hresp) in Hcode. discriminate Hcode.
    + rewrite E. repeat split.
  - destruct (stop_all_logging_cases c w)
      as [[_ Hr] | (P & g & gp & fi & _ & _ & _ & _ & _ & _ & _ & E)].
    + rewrite (Hr resp Hresp) in Hcode. discriminate Hcode.
    + rewrite E. repeat split.
Qed.

Lemma after_successful_stop_witness :
  stop_logging_stress mongo_down (snd (handle all_fine StopAll (active_C1 [warm])))
    = (Ok not_active, snd (handle all_fine StopAll (active_C1 [warm])))
  /\ stop_all_logging mongo_down (snd (handle all_fine StopAll (active_C1 [warm])))
    = (Ok not_active, snd (handle all_fine StopAll (active_C1 [warm])))
  /\ fst (receive_data GET (mkSensorBody None None) "10:00:05"
            (snd (handle all_fine StopAll (active_C1 [warm]))))
    = Ok (mkResponse (status_message "failure" "No data available") 404).
Proof.
  apply (after_successful_stop all_fine mongo_down StopAll (active_C1 [warm])
           (stopped_all_response (success_dict (Fin (1 / inject_Z 2)))
              (JNum (9 # 10)))).
  - right. reflexivity.
  - reflexivity.
  - reflexivity.
Defined.

(** X10: a stop that failed in the database can be retried.  The failed
    attempt left the buffer and the identifier in place, so a second stop,
    with the same model and a database that answers, stores the document
    the first attempt would have stored. *)
Theorem stop_retry_after_persistence_fault
    (c c' : collaborators) (w : world) (a : npfloat) :
  is_logging w = true ->
  predict_stress_from_data (model c) (buffered_data w) = Ok (success_dict a) ->
  insert_one_ok c = false ->
  model c' = model c ->
  insert_one_ok c' = true ->
  fst (stop_logging_stress c w) = Raise PersistenceFault
  /\ stop_logging_stress c' (serve [(c, StopLogging)] w)
     = (Ok (stopped_response (success_dict a)),
        mkWorld [] false None (collection w ++ [stored_record w a])%list).
Proof.
  intros Hlog Hcls Hdown Hmodel Hup.
  assert (E : stop_logging_stress c w = (Raise PersistenceFault, w)).
  { run_handler. rewrite Hlog, Hcls.
    cbn [getitem success_dict String.eqb Ascii.eqb Bool.eqb].
    now rewrite Hdown. }
  cbn [serve handle]. rewrite E. split; [reflexivity |].
  cbn [snd]. run_handler. rewrite Hlog, Hmodel, Hcls.
  cbn [getitem success_dict String.eqb Ascii.eqb Bool.eqb].
  now rewrite Hup.
Qed.

Lemma stop_retry_after_persistence_fault_witness :
  fst (stop_logging_stress mongo_down (active_C1 [warm])) = Raise PersistenceFault
  /\ stop_logging_stress all_fine (serve [(mongo_down, StopLogging)] (active_C1 [warm]))
     = (Ok (stopped_response (success_dict (Fin (1 / inject_Z 2)))),
        mkWorld [] false None
          [stored_record (active_C1 [warm]) (Fin (1 / inject_Z 2))]).
Proof.
  apply (stop_retry_after_persistence_fault mongo_down all_fine
           (active_C1 [warm]) (Fin (1 / inject_Z 2))); reflexivity.
Defined.

(** X11: one out-of-range sample blocks the session.  Once the buffer of
    an Active session holds a temperature outside [26, 38], no amount of
    further [/data] requests whose body is an object with finite numeric
    readings (or with a field missing), or of [GET /data], helps: every
    stop raises the same [KeyError] and leaves the session Active with its
    buffer. *)
Theorem out_of_range_sample_blocks_stop
    (c : collaborators) (rs : list (collaborators * request)) (w : world) :
  is_logging w = true ->
  Exists (fun e => outside_range (TEMP e)) (buffered_data w) ->
  forallb (fun cr => is_data (snd cr)) rs = true ->
  stop_logging_stress c (serve rs w)
    = (Raise (KeyError "average_stress"), serve rs w)
  /\ is_logging (serve rs w) = true.
Proof.
  intros Hlog Hout Hrs.
  destruct (serve_data_extends rs w Hrs) as [es ->].
  split; [| exact Hlog].
  run_handler. cbn [is_logging buffered_data]. rewrite Hlog.
  rewrite predict_outside; [reflexivity |].
  apply Exists_app. now left.
Qed.

Lemma out_of_range_sample_blocks_stop_witness :
  stop_logging_stress all_fine
    (serve (posts all_fine four_samples) (active_C1 [feverish]))
    = (Raise (KeyError "average_stress"),
       serve (posts all_fine four_samples) (active_C1 [feverish]))
  /\ is_logging (serve (posts all_fine four_samples) (active_C1 [feverish])) = true.
Proof.
  apply (out_of_range_sample_blocks_stop all_fine (posts all_fine four_samples)
           (active_C1 [feverish])).
  - reflexivity.
  - apply Exists_cons_hd. right. reflexivity.
  - reflexivity.
Defined.

(** ** What every request keeps *)

(** The five ways a request can leave the world: unchanged, one sample
    appended, a session started, a start rejected, a session stored and
    reset. *)
Lemma handle_world (c : collaborators) (r : request) (w : world) :
  snd (handle c r w) = w
  \/ (exists e, snd (handle c r w)
                = mkWorld (buffered_data w ++ [e]) (is_logging w)
                          (current_id w) (collection w))
  \/ (exists id, truthy id = true
                 /\ snd (handle c r w) = mkWorld [] true id (collection w))
  \/ (exists id, truthy id = false
                 /\ snd (handle c r w)
                    = mkWorld (buffered_data w) (is_logging w) id (collection w))
  \/ (exists rec, classified_record rec
                  /\ snd (handle c r w)
                     = mkWorld [] false None (collection w ++ [rec])%list).
Proof.
  destruct r as [id | | method d now | id |]; cbn [handle].
  - destruct (truthy id) eqn:Hid.
    + do 2 right; left. exists id. split; [exact Hid |].
      run_handler. now rewrite Hid.
    + do 3 right; left. exists id. split; [exact Hid |].
      run_handler. now rewrite Hid.
  - destruct (stop_logging_stress_cases c w)
      as [[Hw _] | (P & _ & _ & Hne & Hin & E)]; [now left |].
    do 4 right. exists (stored_record w (average P)).
    split; [| now rewrite E].
    repeat split; try assumption. exists (average P). split; reflexivity.
  - destruct (receive_data_world method d now w) as [H | H]; [now left |].
    right; now left.
  - destruct (truthy id) eqn:Hid.
    + do 2 right; left. exists id. split; [exact Hid |].
      run_handler. rewrite Hid. now destruct (start_logging_ok c).
    + do 3 right; left. exists id. split; [exact Hid |].
      run_handler. now rewrite Hid.
  - destruct (stop_all_logging_cases c w)
      as [[Hw _] | (P & g & gp & fi & _ & _ & Hne & Hin & _ & _ & _ & E)];
      [now left |].
    do 4 right. exists (stored_gaze_record w (average P) gp fi).
    split; [| now rewrite E].
    repeat split; try assumption. exists (average P). split; reflexivity.
Qed.

(** X12: a usable identifier is only ever held by an Active session.  If
    that holds of a world, it holds after any sequence of requests on any
    route, whatever their outcome. *)
Theorem usable_id_only_while_active
    (rs : list (collaborators * request)) (w : world) :
  id_implies_active w -> id_implies_active (serve rs w).
Proof.
  revert w. induction rs as [| [c r] rs IH]; intros w Hw; [exact Hw |].
  cbn [serve]. apply IH. unfold id_implies_active in *.
  destruct (handle_world c r w)
    as [-> | [[e ->] | [(id & Hid & ->) | [(id & Hid & ->) | (rec & _ & ->)]]]];
    cbn [current_id is_logging]; try assumption; try reflexivity.
  - rewrite Hid. discriminate.
  - discriminate.
Qed.

Lemma usable_id_only_while_active_witness :
  id_implies_active
    (serve [(all_fine, StartLogging (Some "C1")); (all_fine, StartLogging None);
            (mongo_down, StopLogging); (camera_down, StartAll (Some "C2"))]
       initial).
Proof.
  apply (usable_id_only_while_active
           [(all_fine, StartLogging (Some "C1")); (all_fine, StartLogging None);
            (mongo_down, StopLogging); (camera_down, StartAll (Some "C2"))]
           initial).
  unfold id_implies_active. cbn. discriminate.
Defined.

(** X13: the database is append-only.  After any sequence of requests the
    documents stored before are still there, unchanged and in the same
    order, followed by at most one new document per request. *)
Theorem database_is_append_only
    (rs : list (collaborators * request)) (w : world) :
  exists added,
    collection (serve rs w) = (collection w ++ added)%list
    /\ (List.length added <= List.length rs)%nat.
Proof.
  revert w. induction rs as [| [c r] rs IH]; intros w.
  - exists []. cbn. split; [now rewrite app_nil_r | constructor].
  - cbn [serve]. destruct (IH (snd (handle c r w))) as (added & E & Hlen).
    destruct (handle_world c r w)
      as [H | [[e H] | [(id & _ & H) | [(id & _ & H) | (rec & _ & H)]]]];
      rewrite H in E; cbn [collection] in E.
    1-4: exists added; split; [rewrite H; exact E | cbn; lia].
    exists (rec :: added). split.
    + rewrite H, E, <- app_assoc. reflexivity.
    + cbn. lia.
Qed.

(** X14: in a server started from the initial state whose [/data]
    requests carry finite numeric readings, every stored document comes
    from a successful classification: its samples are not empty and all lie
    inside [26, 38], and its two stress fields are the label and the
    percentage of one aggregate. *)
Theorem stored_documents_are_classified
    (rs : list (collaborators * request)) :
  Forall classified_record (collection (serve rs initial)).
Proof.
  assert (G : forall w, Forall classified_record (collection w) ->
                        Forall classified_record (collection (serve rs w))).
  { induction rs as [| [c r] rs IH]; intros w Hw; [exact Hw |].
    cbn [serve]. apply IH.
    destruct (handle_world c r w)
      as [-> | [[e ->] | [(id & _ & ->) | [(id & _ & ->) | (rec & Hrec & ->)]]]];
      cbn [collection]; try assumption.
    apply Forall_app. split; [assumption | now constructor]. }
  apply G. constructor.
Qed.

(** * Further properties of the classifier wrapper *)

(** X15: the four outcomes of [predict_stress_from_data] on a list of
    samples with finite numeric readings, each with the exact condition
    under which it occurs: [KeyError] for the empty list;
    the failure dict when some temperature is outside [26, 38] (the model
    is then not consulted); the model's fault; and otherwise the success
    dict of the aggregate of the model's predictions. *)
Theorem classification_outcomes (m : classifier) (data : list entry) :
  (predict_stress_from_data m data = Raise (KeyError "TEMP") <-> data = [])
  /\ (predict_stress_from_data m data = Ok (failure_dict temperature_message)
      <-> Exists (fun e => outside_range (TEMP e)) data)
  /\ (predict_stress_from_data m data = Raise ModelFault
      <-> data <> []
          /\ Forall (fun e => in_range (TEMP e)) data
          /\ m (df_features (pd_DataFrame data)) = None)
  /\ ((exists P, predict_stress_from_data m data = Ok (success_dict (average P)))
      <-> data <> []
          /\ Forall (fun e => in_range (TEMP e)) data
          /\ m (df_features (pd_DataFrame data)) <> None).
Proof.
  assert (Hdec : Exists (fun e => outside_range (TEMP e)) data
                 \/ Forall (fun e => in_range (TEMP e)) data).
  { clear. induction data as [| e data [IH | IH]].
    - right. constructor.
    - left. now constructor 2.
    - destruct (out_of_range (TEMP e)) eqn:E.
      + left. constructor 1. now apply out_of_range_true.
      + right. constructor; [now apply out_of_range_false | exact IH]. }
  destruct data as [| e data].
  { rewrite predict_empty.
    split; [| split; [| split]]; split; intros H; outcome_case. }
  destruct Hdec as [Hout | Hin].
  - rewrite (predict_outside m _ Hout).
    assert (Hno : ~ Forall (fun e => in_range (TEMP e)) (e :: data)).
    { intros HF. apply Exists_exists in Hout as (x & Hx & Ho).
      rewrite Forall_forall in HF. specialize (HF x Hx).
      apply out_of_range_true in Ho. apply out_of_range_false in HF. congruence. }
    split; [| split; [| split]]; split; intros H; outcome_case.
  - rewrite (predict_in_range m (e :: data)) by (assumption || discriminate).
    assert (Hno : ~ Exists (fun e => outside_range (TEMP e)) (e :: data)).
    { intros HE. apply Exists_exists in HE as (x & Hx & Ho).
      rewrite Forall_forall in Hin. specialize (Hin x Hx).
      apply out_of_range_true in Ho. apply out_of_range_false in Hin. congruence. }
    destruct (m (df_features (pd_DataFrame (e :: data)))) as [P |];
      split; [| split; [| split] | | split; [| split]]; split; intros H;
      outcome_case.
Qed.

(** X16: the label is monotone in the aggregate: a larger avgStress never
    yields a calmer label. *)
Theorem threshold_monotone (q1 q2 : Q) :
  q1 <= q2 ->
  (label_rank (threshold (Fin q1)) <= label_rank (threshold (Fin q2)))%nat.
Proof.
  intros H. unfold threshold, np_lt.
  destruct (Qlt_bool q1 (25 # 100)) eqn:A1; [cbn; lia |].
  destruct (Qlt_bool q2 (25 # 100)) eqn:A2.
  { apply Qlt_bool_iff in A2. apply not_true_iff_false in A1.
    exfalso. apply A1, Qlt_bool_iff. lra. }
  destruct (Qlt_bool q1 (75 # 100)) eqn:B1;
    destruct (Qlt_bool q2 (75 # 100)) eqn:B2; cbn; try lia.
  apply Qlt_bool_iff in B2. apply not_true_iff_false in B1.
  exfalso. apply B1, Qlt_bool_iff. lra.
Qed.

Lemma threshold_monotone_witness :
  (label_rank (threshold (Fin (1 # 5))) <= label_rank (threshold (Fin (4 # 5))))%nat.
Proof.
  apply (threshold_monotone (1 # 5) (4 # 5)). discriminate.
Defined.

(** The sum of predictions that lie in [lo, hi]. *)
Lemma np_sum_bounds (lo hi : Q) (P : list Q) :
  Forall (fun p => lo <= p /\ p <= hi) P ->
  inject_Z (Z.of_nat (List.length P)) * lo <= np_sum P
  /\ np_sum P <= inject_Z (Z.of_nat (List.length P)) * hi.
Proof.
  induction 1 as [| p P [Hlo Hhi] _ [IHlo IHhi]].
  - cbn [List.length Z.of_nat np_sum fold_right]. unfold inject_Z. split; lra.
  - cbn [List.length np_sum fold_right]. fold (np_sum P).
    rewrite Nat2Z.inj_succ, <- Z.add_1_r, inject_Z_plus.
    set (n := inject_Z (Z.of_nat (List.length P))) in *.
    assert (E1 : (n + inject_Z 1) * lo == n * lo + lo) by (unfold inject_Z; ring).
    assert (E2 : (n + inject_Z 1) * hi == n * hi + hi) by (unfold inject_Z; ring).
    rewrite E1, E2. split; lra.
Qed.

(** The aggregate of predictions that lie in [lo, hi] lies in
    [lo / 2, hi / 2]. *)
Lemma average_bounds (lo hi : Q) (P : list Q) :
  P <> [] ->
  Forall (fun p => lo <= p /\ p <= hi) P ->
  exists q, average P = Fin q /\ lo <= 2 * q /\ 2 * q <= hi.
Proof.
  intros Hne HP. rewrite (average_finite P Hne).
  eexists. split; [reflexivity |].
  destruct (np_sum_bounds lo hi P HP) as [Hlo Hhi].
  set (s := np_sum P) in *.
  assert (Hn : 0 < inject_Z (Z.of_nat (List.length P))).
  { destruct P; [congruence |]. cbn [List.length].
    rewrite <- (Zlt_Qlt 0). lia. }
  rewrite inject_Z_mult.
  set (n := inject_Z (Z.of_nat (List.length P))) in *.
  assert (E : 2 * (s / (n * inject_Z 2)) == s / n).
  { unfold inject_Z at 1. field. lra. }
  rewrite E. split.
  - apply Qle_shift_div_l; [exact Hn | lra].
  - apply Qle_shift_div_r; [exact Hn | lra].
Qed.

Lemma Qnum_nonneg (x : Q) : 0 <= x -> (Qnum x <? 0)%Z = false.
Proof.
  unfold Qle. cbn [Qnum Qden]. intros H. apply Z.ltb_ge. lia.
Qed.

(** X17: when every prediction lies in [0, 2] (the three classes 0, 1, 2),
    avgStress lies in [0, 1] and the reported percentage lies between 0.00
    and 100.00: it carries no sign, and the hundredths its digits denote
    are at most 10000. *)
Theorem score_between_0_and_100 (P : list Q) :
  P <> [] ->
  Forall (fun p => 0 <= p /\ p <= 2) P ->
  exists (q : Q) (ip fp : string) (h : N),
    average P = Fin q
    /\ 0 <= q /\ q <= 1
    /\ format_2f (np_mul (average P) 100) = ip ++ "." ++ fp
    /\ int_of_str ip = Some (h / 100)%N
    /\ int_of_str fp = Some (h mod 100)%N
    /\ (h <= 10000)%N.
Proof.
  intros Hne HP.
  destruct (average_bounds 0 2 P Hne HP) as (q & Hq & Hlo & Hhi).
  destruct (format_2f_Q_two_decimals (q * 100))
    as (ip & fp & h & Es & _ & _ & _ & Hip & Hfp & Hnear & _).
  exists q, ip, fp, h. rewrite Hq. cbn [np_mul format_2f].
  assert (H0 : 0 <= q * 100) by lra.
  rewrite (Qnum_nonneg _ H0) in Es.
  repeat split; try assumption; try lra.
  rewrite (Qabs_pos _ H0) in Hnear.
  assert (Hz : inject_Z (Z.of_N h) < inject_Z 10001).
  { unfold inject_Z at 2. lra. }
  rewrite <- Zlt_Qlt in Hz. lia.
Qed.

Lemma score_between_0_and_100_witness :
  exists (q : Q) (ip fp : string) (h : N),
    average [2; 1; 0] = Fin q
    /\ 0 <= q /\ q <= 1
    /\ format_2f (np_mul (average [2; 1; 0]) 100) = ip ++ "." ++ fp
    /\ int_of_str ip = Some (h / 100)%N
    /\ int_of_str fp = Some (h mod 100)%N
    /\ (h <= 10000)%N.
Proof.
  apply (score_between_0_and_100 [2; 1; 0]).
  - discriminate.
  - repeat constructor; discriminate.
Defined.

(** X18: with a binary model (every prediction in [0, 1]) avgStress is at
    most 0.5, so the label Overwhelmed is never assigned. *)
Theorem binary_predictions_never_overwhelmed (P : list Q) :
  P <> [] ->
  Forall (fun p => 0 <= p /\ p <= 1) P ->
  threshold (average P) <> Overwhelmed.
Proof.
  intros Hne HP.
  destruct (average_bounds 0 1 P Hne HP) as (q & -> & Hlo & Hhi).
  destruct (Qlt_le_dec q (1 # 4)) as [L | L].
  - rewrite threshold_resilient by exact L. discriminate.
  - rewrite threshold_adaptive by lra. discriminate.
Qed.

Lemma binary_predictions_never_overwhelmed_witness :
  threshold (average [1; 1; 1]) <> Overwhelmed.
Proof.
  apply (binary_predictions_never_overwhelmed [1; 1; 1]).
  - discriminate.
  - repeat constructor; discriminate.
Defined.

(** X19: the classification does not depend on the timestamps: two sample
    lists with the same heart rates and temperatures, in the same order,
    get the same result from the same model. *)
Theorem timestamps_do_not_matter (m : classifier) (d1 d2 : list entry) :
  map reading d1 = map reading d2 ->
  predict_stress_from_data m d1 = predict_stress_from_data m d2.
Proof.
  intros H.
  assert (Ht : forall d, map TEMP d = map snd (map reading d))
    by (intros d; now rewrite map_map).
  assert (Hf : forall d, map (fun e => [HR e; TEMP e]) d
                         = map (fun r => [fst r; snd r]) (map reading d))
    by (intros d; now rewrite map_map).
  assert (Et : map TEMP d1 = map TEMP d2) by (now rewrite !Ht, H).
  assert (Ef : map (fun e => [HR e; TEMP e]) d1 = map (fun e => [HR e; TEMP e]) d2)
    by (now rewrite !Hf, H).
  unfold predict_stress_from_data, df_TEMP_values, df_features.
  destruct d1 as [| e1 d1], d2 as [| e2 d2]; try discriminate H;
    [reflexivity |].
  cbn [pd_DataFrame columns rows existsb String.eqb Ascii.eqb Bool.eqb orb].
  now rewrite Et, Ef.
Qed.

Lemma timestamps_do_not_matter_witness :
  predict_stress_from_data alternating_model
    [mkEntry 85 30 "10:00:00"; mkEntry 70 31 "10:00:01"]
  = predict_stress_from_data alternating_model
      [mkEntry 85 30 "23:59:58"; mkEntry 70 31 "23:59:59"].
Proof.
  apply (timestamps_do_not_matter alternating_model
           [mkEntry 85 30 "10:00:00"; mkEntry 70 31 "10:00:01"]
           [mkEntry 85 30 "23:59:58"; mkEntry 70 31 "23:59:59"]).
  reflexivity.
Defined.

(** * The camera route *)

Lemma getitem_contains (d : dict) (key : string) :
  match getitem d key with
  | Ok _ => contains d key = true
  | Raise e => contains d key = false /\ e = KeyError key
  end.
Proof.
  induction d as [| [k v] d IH]; cbn [getitem contains existsb fst].
  - now split.
  - destruct (String.eqb k key); [reflexivity | exact IH].
Qed.

(** X20: [POST /startLoggingCam] answers 400 exactly when the body has no
    "name" entry (a null body, an empty object, an object without the key)
    and otherwise hands the value of "name", whatever it is, to the tracker
    and returns the tracker's answer: the guard covers the subscript, so
    the route itself never raises [KeyError]. *)
Theorem start_cam_requires_name
    (tracker : json -> result response) (data : option dict) :
  start_logging_endpoint tracker data =
    match data with
    | None => Ok name_required
    | Some d =>
        match getitem d "name" with
        | Ok name => tracker name
        | Raise _ => Ok name_required
        end
    end.
Proof.
  destruct data as [d |]; [| reflexivity].
  unfold start_logging_endpoint.
  pose proof (getitem_contains d "name") as H.
  destruct d as [| kv d]; [reflexivity |].
  cbn [orb].
  destruct (getitem (kv :: d) "name") as [v | e].
  - now rewrite H.
  - destruct H as [-> _]. reflexivity.
Qed.

(** * A rejected start followed by a stop *)

(** X21: the value a rejected start left in [current_id] is what the next
    stop stores.  In an Active session whose buffer classifies, a start
    without a usable id followed by a stop stores the session's samples
    under the rejected identifier ([None] or the empty string), not under
    the identifier the session was started with. *)
Theorem rejected_start_reaches_document
    (c0 c : collaborators) (id : option string) (w : world) (a : npfloat) :
  is_logging w = true ->
  truthy id = false ->
  predict_stress_from_data (model c) (buffered_data w) = Ok (success_dict a) ->
  insert_one_ok c = true ->
  stop_logging_stress c (serve [(c0, StartLogging id)] w)
  = (Ok (stopped_response (success_dict a)),
     mkWorld [] false None
       (collection w
        ++ [mkCandidate id
              (JStr (format_2f (np_mul a 100) ++ "%"))
              (JStr (label_name (threshold a)))
              None None (buffered_data w)])%list).
Proof.
  intros Hlog Hid Hcls Hins.
  assert (E : serve [(c0, StartLogging id)] w
              = mkWorld (buffered_data w) (is_logging w) id (collection w)).
  { cbn [serve handle]. run_handler. now rewrite Hid. }
  rewrite E. run_handler.
  cbn [is_logging]. rewrite Hlog.
  cbn [is_logging buffered_data current_id collection]. rewrite Hcls.
  cbn [getitem success_dict String.eqb Ascii.eqb Bool.eqb].
  now rewrite Hins.
Qed.

Lemma rejected_start_reaches_document_witness :
  stop_logging_stress all_fine
    (serve [(all_fine, StartLogging None)] (active_C1 [warm]))
  = (Ok (stopped_response (success_dict (Fin (1 / inject_Z 2)))),
     mkWorld [] false None
       [mkCandidate None
          (JStr (format_2f (np_mul (Fin (1 / inject_Z 2)) 100) ++ "%"))
          (JStr (label_name (threshold (Fin (1 / inject_Z 2)))))
          None None [warm]]).
Proof.
  apply (rejected_start_reaches_document all_fine all_fine None
           (active_C1 [warm]) (Fin (1 / inject_Z 2))); reflexivity.
Defined.
